(** * BlinkyTape: the pixel protocol driver of blinkytape/blinkytape.py

    A shallow embedding of class [BlinkyTape].  Python integers are [Z],
    byte strings ([bytes], [bytearray]) are lists of [Z] whose elements are
    checked to lie in [range(256)] when a [bytearray] is built, the serial
    handle is the chronological trace of the calls made on it, and methods
    live in a state-and-exception monad whose state survives a raise, as the
    attributes of a Python object do. *)

From Stdlib Require Import ZArith List String Bool Lia.
Import ListNotations.
Open Scope string_scope.
Open Scope list_scope.
Open Scope Z_scope.

(** ** Exceptions and the method monad *)

Inductive exn : Type :=
| IOError (msg : string)
| RuntimeError (msg : string)
| ValueError (msg : string)
| IndexError (msg : string).

Module PyM.

(** A computation over a mutable object of type [S]: it returns either the
    exception it raised or its value, together with the object as it was
    left (mutations made before a raise are kept). *)
Definition M (S A : Type) : Type := S -> (exn + A) * S.

Definition ret {S A} (a : A) : M S A := fun s => (inr a, s).

Definition bind {S A B} (m : M S A) (k : A -> M S B) : M S B :=
  fun s =>
    match m s with
    | (inr a, s') => k a s'
    | (inl e, s') => (inl e, s')
    end.

Definition raise {S A} (e : exn) : M S A := fun s => (inl e, s).

Definition get {S} : M S S := fun s => (inr s, s).

Definition modify {S} (f : S -> S) : M S unit := fun s => (inr tt, f s).

(** An expression that may raise but touches no attribute. *)
Definition eval {S A} (x : exn + A) : M S A := fun s => (x, s).

End PyM.
Import PyM.

Declare Scope py_scope.
Delimit Scope py_scope with py.
Notation "x <- m ;; k" := (bind m (fun x => k))
  (at level 61, m at next level, right associativity) : py_scope.
Notation "m ;; k" := (bind m (fun _ => k))
  (at level 61, right associativity) : py_scope.
Open Scope py_scope.

(** [for x in xs: body x] *)
Fixpoint for_each {S A} (xs : list A) (body : A -> M S unit) : M S unit :=
  match xs with
  | [] => ret tt
  | x :: rest => body x ;; for_each rest body
  end.

(** [for i in range(0, n): body] with a body that ignores [i]. *)
Fixpoint for_range {S} (n : nat) (body : M S unit) : M S unit :=
  match n with
  | O => ret tt
  | S k => body ;; for_range k body
  end.

(** ** Byte strings *)

Definition bytes : Type := list Z.

Definition is_byte (x : Z) : bool := (0 <=? x) && (x <? 256).

(** [bytearray(iterable_of_ints)]: raises [ValueError] unless every element is
    in [range(256)]. *)
Definition bytearray (xs : list Z) : exn + bytes :=
  if forallb is_byte xs then inr xs
  else inl (ValueError "byte must be in range(0, 256)").

Definition len {A} (xs : list A) : Z := Z.of_nat (List.length xs).

(** ** The serial port (pyserial), as the trace of calls made on the handle *)

Inductive serial_call : Type :=
| Write (data : bytes)
| Flush
| FlushInput
| SetBaudrate (rate : Z)
| Close.

(** ** The object *)

Record BlinkyTape : Type := mkBlinkyTape {
  port : string;
  ledCount : Z;
  buffered : bool;
  buf : bytes;
  serial : list serial_call
}.

Definition set_buf (b : bytes) (self : BlinkyTape) : BlinkyTape :=
  mkBlinkyTape (port self) (ledCount self) (buffered self) b (serial self).

Definition called (c : serial_call) (self : BlinkyTape) : BlinkyTape :=
  mkBlinkyTape (port self) (ledCount self) (buffered self) (buf self)
               (serial self ++ [c]).

Definition serial_write (data : bytes) : M BlinkyTape unit :=
  modify (called (Write data)).
Definition serial_flush : M BlinkyTape unit := modify (called Flush).
Definition serial_flushInput : M BlinkyTape unit := modify (called FlushInput).
Definition serial_setBaudrate (rate : Z) : M BlinkyTape unit :=
  modify (called (SetBaudrate rate)).
Definition serial_close : M BlinkyTape unit := modify (called Close).

(** ** Methods *)

(** [control = bytearray((0, 0, 255))] *)
Definition control : exn + bytes := bytearray [0; 0; 255].

(** [show], lines 99-112. *)
Definition show : M BlinkyTape unit :=
  control <- eval control ;;
  self <- get ;;
  (if buffered self then
     serial_write (buf self ++ control) ;;
     modify (set_buf [])
   else
     serial_write control) ;;
  serial_flush ;;
  serial_flushInput.

(** The loop of [send_list], lines 58-66: [data] is the local accumulator. *)
Fixpoint send_list_loop (colors : list (Z * Z * Z)) (data : bytes)
  : exn + bytes :=
  match colors with
  | [] => inr data
  | (r, g, b) :: rest =>
      let r := if r >=? 255 then 254 else r in
      let g := if g >=? 255 then 254 else g in
      let b := if b >=? 255 then 254 else b in
      match bytearray [r; g; b] with
      | inr t => send_list_loop rest (data ++ t)
      | inl e => inl e
      end
  end.

(** [send_list], lines 57-68. *)
Definition send_list (colors : list (Z * Z * Z)) : M BlinkyTape unit :=
  data <- eval (send_list_loop colors []) ;;
  serial_write data ;;
  show.

(** The clamping and serialisation of one pixel, lines 77-89 of
    [sendPixel]. *)
Definition encode (r g b : Z) : exn + bytes :=
  let r := if r <? 0 then 0 else r in
  let g := if g <? 0 then 0 else g in
  let b := if b <? 0 then 0 else b in
  let r := if r >=? 255 then 254 else r in
  let g := if g >=? 255 then 254 else g in
  let b := if b >=? 255 then 254 else b in
  bytearray [r; g; b].

(** [sendPixel], lines 70-97. *)
Definition sendPixel (r g b : Z) : M BlinkyTape unit :=
  data <- eval (encode r g b) ;;
  self <- get ;;
  if len data * 3 <? ledCount self then
    if buffered self then
      modify (fun self => set_buf (buf self ++ data) self)
    else
      serial_write data ;;
      serial_flush
  else
    raise (RuntimeError "Attempting to set pixel outside range!").

(** [displayColor], lines 114-118; [range(0, ledCount)] is empty for a
    non-positive [ledCount]. *)
Definition displayColor (r g b : Z) : M BlinkyTape unit :=
  self <- get ;;
  for_range (Z.to_nat (ledCount self)) (sendPixel r g b) ;;
  show.

(** [close], lines 128-130. *)
Definition close : M BlinkyTape unit := serial_close.

(** [resetToBootloader], lines 120-126. *)
Definition resetToBootloader : M BlinkyTape unit :=
  serial_setBaudrate 1200 ;;
  close.

(** ** The host: port discovery and port opening

    [listPorts] comes from the sibling module [listports], which scans the
    operating system's device list; its answer may differ from one call to
    the next.  The host records what the [k]-th scan answers, how many scans
    were made, and which ports were opened at which baud rate. *)

Record Host : Type := mkHost {
  listing : nat -> list string;
  scans : nat;
  opened : list (string * Z)
}.

Definition listPorts : M Host (list string) :=
  fun h => (inr (listing h (scans h)),
            mkHost (listing h) (S (scans h)) (opened h)).

(** [serial.Serial(port, baud)] on a port that opens.  pyserial raises when
    the port cannot be opened; that outcome is not modelled, so the
    statements about the constructor below speak of ports that open or of
    paths that end before line 53. *)
Definition serial_Serial (p : string) (baud : Z) : M Host (list serial_call) :=
  fun h => (inr [], mkHost (listing h) (scans h) (opened h ++ [(p, baud)])).

(** [xs[0]] *)
Definition item0 {A} (xs : list A) : exn + A :=
  match xs with
  | x :: _ => inr x
  | [] => inl (IndexError "list index out of range")
  end.

(** Running a method on the object under construction. *)
Definition on_self {A} (m : M BlinkyTape A) (self : BlinkyTape)
  : M Host BlinkyTape :=
  fun h =>
    match m self with
    | (inr _, self') => (inr self', h)
    | (inl e, _) => (inl e, h)
    end.

(** [BlinkyTape.__init__], lines 18-55; [None] is an absent [port]. *)
Definition __init__ (port : option string) (ledCount : Z) (buffered : bool)
  : M Host BlinkyTape :=
  port <- match port with
          | None =>
              ports <- listPorts ;;
              if len ports =? 0 then raise (IOError "BlinkyTape not found!")
              else
                again <- listPorts ;;
                eval (item0 again)
          | Some p => ret p
          end ;;
  handle <- serial_Serial port 115200 ;;
  on_self show (mkBlinkyTape port ledCount buffered [] handle).

(** Default arguments of the constructor. *)
Definition default_ledCount : Z := 60.
Definition default_buffered : bool := true.

(** ** What the specification calls the pixel encoder

    The clamping policy in the specification's words: an input below 0 is
    raised to 0, an input at or above 255 is lowered to 254. *)
Definition clamp (x : Z) : Z :=
  if x <? 0 then 0 else if x >=? 255 then 254 else x.

Definition triplet (p : Z * Z * Z) : bytes :=
  let '(r, g, b) := p in [clamp r; clamp g; clamp b].

(** The clamp of the bulk path: the upper bound only. *)
Definition clamp_upper (x : Z) : Z := if x >=? 255 then 254 else x.

Definition triplet_upper (p : Z * Z * Z) : bytes :=
  let '(r, g, b) := p in [clamp_upper r; clamp_upper g; clamp_upper b].

Definition nonneg (p : Z * Z * Z) : Prop :=
  let '(r, g, b) := p in 0 <= r /\ 0 <= g /\ 0 <= b.

(** ** Sessions a caller can reach *)

Inductive call : Type :=
| SendPixel (r g b : Z)
| SendList (colors : list (Z * Z * Z))
| Show
| DisplayColor (r g b : Z).

Definition perform (c : call) : M BlinkyTape unit :=
  match c with
  | SendPixel r g b => sendPixel r g b
  | SendList colors => send_list colors
  | Show => show
  | DisplayColor r g b => displayColor r g b
  end.

(** The object after a sequence of calls; a caller may catch an exception and
    go on, so the object is followed through failed calls too. *)
Definition after (calls : list call) (self : BlinkyTape) : BlinkyTape :=
  fold_left (fun s c => snd (perform c s)) calls self.

Inductive reachable : BlinkyTape -> Prop :=
| reach_open port lc bf h h' s :
    __init__ port lc bf h = (inr s, h') -> reachable s
| reach_call c s : reachable s -> reachable (snd (perform c s)).

(** Whole pixels held by the accumulator. *)
Definition pixels_held (self : BlinkyTape) : Z := len (buf self) / 3.

(** The accumulator holds whole pixels only. *)
Definition whole_pixels (self : BlinkyTape) : Prop := (3 | len (buf self)).

(** ** Concrete sessions

    The object that [BlinkyTape(port)] builds on a host where discovery
    finds nothing, with the default 60 LEDs, buffered; and the same opened
    with [buffered=False]. *)
Definition quiet_host : Host := mkHost (fun _ => []) 0 [].

Definition tape60 : BlinkyTape :=
  mkBlinkyTape "COM5" 60 true [] [Write [0; 0; 255]; Flush; FlushInput].

Definition tape60_immediate : BlinkyTape :=
  mkBlinkyTape "COM5" 60 false [] [Write [0; 0; 255]; Flush; FlushInput].

Definition tape60_one_pixel : BlinkyTape := after [SendPixel 1 2 3] tape60.

(** A strip of ten LEDs, and the same after eleven pixels were sent. *)
Definition tape10 : BlinkyTape :=
  mkBlinkyTape "COM5" 10 true [] [Write [0; 0; 255]; Flush; FlushInput].

Definition tape10_overfull : BlinkyTape :=
  after (repeat (SendPixel 1 2 3) 11) tape10.

(** Hosts whose device list changes between two scans: the tape is
    re-enumerated under another name, or unplugged. *)
Definition renaming_host : Host :=
  mkHost (fun k => match k with
                   | O => ["/dev/ttyACM0"]
                   | _ => ["/dev/ttyACM1"]
                   end) 0 [].

Definition unplugging_host : Host :=
  mkHost (fun k => match k with
                   | O => ["/dev/ttyACM0"]
                   | _ => []
                   end) 0 [].

(** ** The bulk path as the specification words it

    Each channel is clamped at the upper bound only, the triplets are
    concatenated and written in one call, and a commit follows. *)
Definition send_list_as_specified (colors : list (Z * Z * Z))
  : M BlinkyTape unit :=
  serial_write (flat_map triplet_upper colors) ;;
  show.

(** ** The byte stream on the wire

    The bytes a trace has sent to the device, in order, whatever the way
    they were split into writes. *)
Definition written (c : serial_call) : bytes :=
  match c with
  | Write data => data
  | _ => []
  end.

Definition wire (trace : list serial_call) : bytes := flat_map written trace.

(** A byte that is legal colour data: the module docstring reserves 255. *)
Definition is_data (x : Z) : Prop := 0 <= x <= 254.

(** A run of colour triplets. *)
Inductive pixel_data : bytes -> Prop :=
| pixel_data_nil : pixel_data []
| pixel_data_cons x y z rest :
    is_data x -> is_data y -> is_data z -> pixel_data rest ->
    pixel_data (x :: y :: z :: rest).

(** A run of 3-byte blocks, each a colour triplet or the show command. *)
Inductive framed : bytes -> Prop :=
| framed_nil : framed []
| framed_data x y z rest :
    is_data x -> is_data y -> is_data z -> framed rest ->
    framed (x :: y :: z :: rest)
| framed_show rest : framed rest -> framed (0 :: 0 :: 255 :: rest).

(** The attributes no method assigns. *)
Definition config (self : BlinkyTape) : string * Z * bool :=
  (port self, ledCount self, buffered self).

(** The object a successful constructor returns. *)
Definition fresh (p : string) (lc : Z) (bf : bool) : BlinkyTape :=
  mkBlinkyTape p lc bf [] [Write [0; 0; 255]; Flush; FlushInput].

(** The accumulator holds colour triplets only and the bytes sent so far
    are a run of well-formed blocks. *)
Definition well_framed (self : BlinkyTape) : Prop :=
  pixel_data (buf self) /\ framed (wire (serial self)).

(** Sessions and hosts for the concrete runs of the later sections. *)
Definition tape5 : BlinkyTape := fresh "COM5" 5 true.

Definition tape0 : BlinkyTape := fresh "COM5" 0 true.

Definition tape60_immediate_used : BlinkyTape :=
  after [SendPixel 1 2 3; DisplayColor 4 5 6; SendList [(7, 8, 9)]]
        tape60_immediate.


(** * Properties *)

(** ** Basic equations of the methods *)

Ltac run :=
  cbv [show send_list sendPixel displayColor perform
       serial_write serial_flush serial_flushInput
       bind ret raise get modify eval called set_buf control];
  cbn [port ledCount buffered buf serial fst snd].

Lemma geb_255 (x : Z) : (x >=? 255) = (255 <=? x).
Proof. apply Z.geb_leb. Qed.

Ltac split_clamps :=
  repeat match goal with
    | |- context [?x >=? 255] => rewrite (geb_255 x)
    | |- context [?x <? ?y] => destruct (Z.ltb_spec x y)
    | |- context [?x <=? ?y] => destruct (Z.leb_spec x y)
    end.

Lemma clamp_range (x : Z) : 0 <= clamp x <= 254.
Proof. unfold clamp. split_clamps; lia. Qed.

Lemma clamp_is_byte (x : Z) : is_byte (clamp x) = true.
Proof.
  pose proof (clamp_range x) as H. unfold is_byte.
  apply andb_true_iff. split; [apply Z.leb_le | apply Z.ltb_lt]; lia.
Qed.

Lemma encode_eq (r g b : Z) : encode r g b = inr (triplet (r, g, b)).
Proof.
  assert (E : forall x,
             (if (if x <? 0 then 0 else x) >=? 255 then 254
              else (if x <? 0 then 0 else x)) = clamp x).
  { intro x. unfold clamp. split_clamps; lia. }
  unfold encode, triplet. cbv zeta. rewrite !E.
  unfold bytearray. cbn [forallb]. rewrite !clamp_is_byte. reflexivity.
Qed.

Lemma show_eq (s : BlinkyTape) :
  show s =
  (inr tt,
   mkBlinkyTape (port s) (ledCount s) (buffered s)
     (if buffered s then [] else buf s)
     (serial s ++
        [Write ((if buffered s then buf s else []) ++ [0; 0; 255]);
         Flush; FlushInput])).
Proof.
  destruct s as [p lc bf bs tr]. destruct bf; run; cbn;
    rewrite <- ?app_assoc; reflexivity.
Qed.

Lemma sendPixel_eq (r g b : Z) (s : BlinkyTape) :
  sendPixel r g b s =
  if 9 <? ledCount s then
    (inr tt,
     if buffered s then set_buf (buf s ++ triplet (r, g, b)) s
     else called Flush (called (Write (triplet (r, g, b))) s))
  else (inl (RuntimeError "Attempting to set pixel outside range!"), s).
Proof.
  unfold sendPixel, bind, eval. rewrite encode_eq. unfold get.
  change (len (triplet (r, g, b)) * 3) with 9.
  destruct (9 <? ledCount s); [| reflexivity].
  destruct (buffered s); reflexivity.
Qed.

Lemma for_each_sendPixel_buffered (pixels : list (Z * Z * Z)) :
  forall s, buffered s = true -> 9 < ledCount s ->
    for_each pixels (fun '(r, g, b) => sendPixel r g b) s =
    (inr tt, set_buf (buf s ++ flat_map triplet pixels) s).
Proof.
  induction pixels as [| [[r g] b] rest IH]; intros s Hb Hc.
  - cbn. rewrite app_nil_r. destruct s; reflexivity.
  - cbn [for_each flat_map]. unfold bind at 1. rewrite sendPixel_eq.
    apply Z.ltb_lt in Hc as Hc'. rewrite Hc', Hb.
    rewrite IH by (destruct s; assumption).
    destruct s; cbn. rewrite <- app_assoc. reflexivity.
Qed.

Lemma sendPixel_accepts (r g b : Z) (s : BlinkyTape) :
  9 < ledCount s ->
  sendPixel r g b s =
  (inr tt,
   if buffered s then set_buf (buf s ++ triplet (r, g, b)) s
   else called Flush (called (Write (triplet (r, g, b))) s)).
Proof.
  intro H. rewrite sendPixel_eq. apply Z.ltb_lt in H. rewrite H. reflexivity.
Qed.

Lemma sendPixel_rejects (r g b : Z) (s : BlinkyTape) :
  ledCount s <= 9 ->
  sendPixel r g b s =
  (inl (RuntimeError "Attempting to set pixel outside range!"), s).
Proof.
  intro H. rewrite sendPixel_eq. apply Z.ltb_ge in H. rewrite H. reflexivity.
Qed.

Lemma tape60_opened :
  __init__ (Some "COM5") default_ledCount default_buffered quiet_host =
  (inr tape60, mkHost (fun _ => []) 0 [("COM5", 115200)]).
Proof. reflexivity. Qed.

(** ** Claims about [sendPixel] and [show] *)

(** C1: a call of [sendPixel] raises if and only if [9 >= ledCount],
    whatever the accumulator and the trace hold; the exception is then the
    [RuntimeError] of line 97 and the object, the accumulator included, is
    left as it was. *)
Theorem sendPixel_fails_iff_capacity_below_10 (s : BlinkyTape) (r g b : Z) :
  ((exists e, fst (sendPixel r g b s) = inl e) <-> 9 >= ledCount s) /\
  (forall e, fst (sendPixel r g b s) = inl e ->
     e = RuntimeError "Attempting to set pixel outside range!" /\
     snd (sendPixel r g b s) = s /\
     buf (snd (sendPixel r g b s)) = buf s).
Proof.
  destruct (Z.lt_ge_cases 9 (ledCount s)) as [Hlt | Hge].
  - rewrite (sendPixel_accepts r g b s Hlt). cbn [fst snd]. split.
    + split; [intros [e He]; discriminate | lia].
    + intros e He. discriminate.
  - rewrite (sendPixel_rejects r g b s Hge). cbn [fst snd]. split.
    + split; [lia | intros _; eexists; reflexivity].
    + intros e He. injection He as <-. repeat split.
Qed.

(** C4: the encoding of a pixel never raises and yields three bytes, each in
    [0, 254]; a channel at or above 255 gives 254 and a channel below 0
    gives 0. *)
Theorem encode_saturates (r g b : Z) :
  exists x y z,
    encode r g b = inr [x; y; z] /\
    (0 <= x <= 254 /\ 0 <= y <= 254 /\ 0 <= z <= 254) /\
    ((255 <= r -> x = 254) /\ (255 <= g -> y = 254) /\ (255 <= b -> z = 254)) /\
    ((r < 0 -> x = 0) /\ (g < 0 -> y = 0) /\ (b < 0 -> z = 0)).
Proof.
  exists (clamp r), (clamp g), (clamp b).
  split; [apply encode_eq |].
  split; [auto using clamp_range |].
  unfold clamp. split; repeat split; split_clamps; lia.
Qed.

(** C3: in buffered mode, from an empty accumulator and with a capacity that
    rejects no call, N calls of [sendPixel] followed by [show] add to the
    trace a single write of the N encoded triplets, which are the clamped
    channels of each pixel in order, three bytes a pixel, followed by
    (0,0,255), and leave the accumulator empty. *)
Theorem buffered_frame_written_at_show
    (s : BlinkyTape) (pixels : list (Z * Z * Z)) :
  buffered s = true -> buf s = [] -> 9 < ledCount s ->
  Forall (fun '(r, g, b) => encode r g b = inr [clamp r; clamp g; clamp b])
         pixels /\
  (for_each pixels (fun '(r, g, b) => sendPixel r g b) ;; show) s =
  (inr tt,
   mkBlinkyTape (port s) (ledCount s) true []
     (serial s ++
        [Write (flat_map triplet pixels ++ [0; 0; 255]); Flush; FlushInput])).
Proof.
  intros Hb He Hc. split.
  - clear. induction pixels as [| [[r g] b] rest IH]; constructor.
    + apply encode_eq.
    + exact IH.
  - unfold bind. rewrite (for_each_sendPixel_buffered pixels s Hb Hc).
    rewrite show_eq. destruct s as [p lc bf bs tr]. cbn in Hb, He. subst.
    cbn. reflexivity.
Qed.

Lemma buffered_frame_written_at_show_witness :
  Forall (fun '(r, g, b) => encode r g b = inr [clamp r; clamp g; clamp b])
         [(255, -3, 7); (0, 128, 300)] /\
  (for_each [(255, -3, 7); (0, 128, 300)]
     (fun '(r, g, b) => sendPixel r g b) ;; show) tape60 =
  (inr tt,
   mkBlinkyTape "COM5" 60 true []
     [Write [0; 0; 255]; Flush; FlushInput;
      Write [254; 0; 7; 0; 128; 254; 0; 0; 255]; Flush; FlushInput]).
Proof.
  apply (buffered_frame_written_at_show tape60 [(255, -3, 7); (0, 128, 300)]).
  - reflexivity.
  - reflexivity.
  - cbn. lia.
Defined.

(** C6: in immediate mode a call of [sendPixel] that passes the capacity
    check adds to the trace one write of the three encoded bytes and then
    one flush, and leaves the accumulator as it was. *)
Theorem immediate_pixel_one_write_one_flush (s : BlinkyTape) (r g b : Z) :
  buffered s = false -> 9 < ledCount s ->
  exists data : bytes,
    encode r g b = inr data /\ List.length data = 3%nat /\
    sendPixel r g b s =
    (inr tt,
     mkBlinkyTape (port s) (ledCount s) false (buf s)
       (serial s ++ [Write data; Flush])).
Proof.
  intros Hb Hc. exists (triplet (r, g, b)).
  split; [apply encode_eq |]. split; [reflexivity |].
  rewrite (sendPixel_accepts r g b s Hc), Hb.
  destruct s as [p lc bf bs tr]. cbn in Hb. subst.
  unfold called. cbn. rewrite <- app_assoc. reflexivity.
Qed.

Lemma immediate_pixel_one_write_one_flush_witness :
  exists data : bytes,
    encode 10 20 999 = inr data /\ List.length data = 3%nat /\
    sendPixel 10 20 999 tape60_immediate =
    (inr tt,
     mkBlinkyTape (port tape60_immediate) (ledCount tape60_immediate) false
       (buf tape60_immediate)
       (serial tape60_immediate ++ [Write data; Flush])).
Proof.
  apply (immediate_pixel_one_write_one_flush tape60_immediate 10 20 999).
  - reflexivity.
  - cbn. lia.
Defined.

(** C10: on a buffered session with an empty accumulator, two calls of
    [show] in a row add to the trace exactly two writes, each of the control
    triplet (0,0,255) alone, and leave the accumulator empty. *)
Theorem show_twice_on_empty (s : BlinkyTape) :
  buffered s = true -> buf s = [] ->
  (show ;; show) s =
  (inr tt,
   mkBlinkyTape (port s) (ledCount s) true []
     (serial s ++
        [Write [0; 0; 255]; Flush; FlushInput;
         Write [0; 0; 255]; Flush; FlushInput])).
Proof.
  intros Hb He. unfold bind. rewrite show_eq, show_eq.
  destruct s as [p lc bf bs tr]. cbn in Hb, He. subst.
  cbn. rewrite <- app_assoc. reflexivity.
Qed.

Lemma show_twice_on_empty_witness :
  (show ;; show) tape60 =
  (inr tt,
   mkBlinkyTape (port tape60) (ledCount tape60) true []
     (serial tape60 ++
        [Write [0; 0; 255]; Flush; FlushInput;
         Write [0; 0; 255]; Flush; FlushInput])).
Proof.
  apply (show_twice_on_empty tape60); reflexivity.
Defined.

(** ** The bulk path *)

Lemma clamp_upper_is_byte (x : Z) : 0 <= x -> is_byte (clamp_upper x) = true.
Proof.
  intro H. unfold is_byte, clamp_upper. apply andb_true_iff.
  split; [apply Z.leb_le | apply Z.ltb_lt]; split_clamps; lia.
Qed.

Lemma send_list_loop_nonneg (colors : list (Z * Z * Z)) :
  Forall nonneg colors ->
  forall data,
    send_list_loop colors data = inr (data ++ flat_map triplet_upper colors).
Proof.
  induction 1 as [| [[r g] b] rest [Hr [Hg Hb]] _ IH]; intro data.
  - cbn. rewrite app_nil_r. reflexivity.
  - cbn [send_list_loop flat_map]. cbv zeta.
    fold (clamp_upper r) (clamp_upper g) (clamp_upper b).
    unfold bytearray. cbn [forallb].
    rewrite !clamp_upper_is_byte by assumption. cbn [andb].
    rewrite IH, <- app_assoc. reflexivity.
Qed.

Lemma send_list_eq (colors : list (Z * Z * Z)) (s : BlinkyTape) :
  send_list colors s =
  match send_list_loop colors [] with
  | inr data =>
      (inr tt,
       mkBlinkyTape (port s) (ledCount s) (buffered s)
         (if buffered s then [] else buf s)
         (serial s ++
            [Write data;
             Write ((if buffered s then buf s else []) ++ [0; 0; 255]);
             Flush; FlushInput]))
  | inl e => (inl e, s)
  end.
Proof.
  unfold send_list, bind at 1, eval.
  destruct (send_list_loop colors []) as [e | data]; [reflexivity |].
  unfold bind, serial_write, modify. rewrite show_eq.
  destruct s as [p lc bf bs tr]. unfold called. cbn.
  rewrite <- app_assoc. reflexivity.
Qed.

(** C5, as amended: when the colors encode, [send_list] writes the pixel
    bytes, which are computed from the colors alone, at once and in a write
    of their own, in buffered and in immediate mode alike; the commit that
    follows leaves the accumulator untouched in immediate mode, and in
    buffered mode writes it ahead of the control triplet and empties it. *)
Theorem send_list_writes_at_once_then_commits
    (s : BlinkyTape) (colors : list (Z * Z * Z)) (data : bytes) :
  send_list_loop colors [] = inr data ->
  send_list colors s =
  (inr tt,
   mkBlinkyTape (port s) (ledCount s) (buffered s)
     (if buffered s then [] else buf s)
     (serial s ++
        [Write data;
         Write ((if buffered s then buf s else []) ++ [0; 0; 255]);
         Flush; FlushInput])).
Proof.
  intro H. rewrite send_list_eq, H. reflexivity.
Qed.

Lemma send_list_writes_at_once_then_commits_witness :
  send_list [(255, 0, 7)] tape60_one_pixel =
  (inr tt,
   mkBlinkyTape (port tape60_one_pixel) (ledCount tape60_one_pixel)
     (buffered tape60_one_pixel)
     (if buffered tape60_one_pixel then [] else buf tape60_one_pixel)
     (serial tape60_one_pixel ++
        [Write [254; 0; 7];
         Write ((if buffered tape60_one_pixel
                 then buf tape60_one_pixel else []) ++ [0; 0; 255]);
         Flush; FlushInput])).
Proof.
  apply (send_list_writes_at_once_then_commits
           tape60_one_pixel [(255, 0, 7)] [254; 0; 7]).
  reflexivity.
Defined.

(** C5, as stated, fails: on a buffered session holding one pixel,
    [send_list] empties the accumulator and puts its bytes on the wire. *)
Lemma send_list_reads_and_clears_accumulator :
  buffered tape60_one_pixel = true /\
  buf tape60_one_pixel = [1; 2; 3] /\
  buf (snd (send_list [(9, 9, 9)] tape60_one_pixel)) <> buf tape60_one_pixel /\
  serial (snd (send_list [(9, 9, 9)] tape60_one_pixel)) =
    serial tape60_one_pixel ++
      [Write [9; 9; 9]; Write [1; 2; 3; 0; 0; 255]; Flush; FlushInput] /\
  serial (snd (send_list [(9, 9, 9)] tape60_one_pixel)) <>
    serial (snd (send_list [(9, 9, 9)] (set_buf [] tape60_one_pixel))).
Proof.
  repeat split; try reflexivity; vm_compute; discriminate.
Qed.

(** C7, as amended: for colors without a negative channel, [send_list]
    clamps each channel at the upper bound, concatenates the triplets,
    writes them in one call and then commits. *)
Theorem send_list_nonneg_as_specified
    (s : BlinkyTape) (colors : list (Z * Z * Z)) :
  Forall nonneg colors ->
  send_list colors s = send_list_as_specified colors s /\
  fst (send_list colors s) = inr tt /\
  serial (snd (send_list colors s)) =
    serial s ++
      [Write (flat_map triplet_upper colors);
       Write ((if buffered s then buf s else []) ++ [0; 0; 255]);
       Flush; FlushInput].
Proof.
  intro H.
  assert (E : send_list colors s = send_list_as_specified colors s).
  { unfold send_list, send_list_as_specified, bind at 1, eval.
    rewrite (send_list_loop_nonneg colors H []). reflexivity. }
  split; [exact E |].
  rewrite send_list_eq, (send_list_loop_nonneg colors H []).
  split; reflexivity.
Qed.

Lemma send_list_nonneg_as_specified_witness :
  send_list [(300, 0, 255); (1, 2, 3)] tape60 =
    send_list_as_specified [(300, 0, 255); (1, 2, 3)] tape60 /\
  fst (send_list [(300, 0, 255); (1, 2, 3)] tape60) = inr tt /\
  serial (snd (send_list [(300, 0, 255); (1, 2, 3)] tape60)) =
    serial tape60 ++
      [Write (flat_map triplet_upper [(300, 0, 255); (1, 2, 3)]);
       Write ((if buffered tape60 then buf tape60 else []) ++ [0; 0; 255]);
       Flush; FlushInput].
Proof.
  apply (send_list_nonneg_as_specified tape60 [(300, 0, 255); (1, 2, 3)]).
  repeat constructor; lia.
Defined.

(** C7, as stated, fails: a negative channel is not passed through to the
    wire; building the triplet raises [ValueError] and nothing is written. *)
Lemma send_list_negative_channel_raises :
  send_list [(-1, 0, 0)] tape60 =
    (inl (ValueError "byte must be in range(0, 256)"), tape60) /\
  send_list [(-1, 0, 0)] tape60 <> send_list_as_specified [(-1, 0, 0)] tape60.
Proof.
  split; [reflexivity | vm_compute; discriminate].
Qed.

(** ** Opening a session *)

Lemma init_with_port (p : string) (lc : Z) (bf : bool) (h : Host) :
  __init__ (Some p) lc bf h =
  (inr (mkBlinkyTape p lc bf [] [Write [0; 0; 255]; Flush; FlushInput]),
   mkHost (listing h) (scans h) (opened h ++ [(p, 115200)])).
Proof.
  unfold __init__, bind, ret, serial_Serial, on_self. rewrite show_eq.
  destruct bf; reflexivity.
Qed.

Lemma init_discovering (lc : Z) (bf : bool) (h : Host) :
  __init__ None lc bf h =
  match listing h (scans h) with
  | [] =>
      (inl (IOError "BlinkyTape not found!"),
       mkHost (listing h) (S (scans h)) (opened h))
  | _ :: _ =>
      match listing h (S (scans h)) with
      | [] =>
          (inl (IndexError "list index out of range"),
           mkHost (listing h) (S (S (scans h))) (opened h))
      | p :: _ =>
          (inr (mkBlinkyTape p lc bf [] [Write [0; 0; 255]; Flush; FlushInput]),
           mkHost (listing h) (S (S (scans h))) (opened h ++ [(p, 115200)]))
      end
  end.
Proof.
  unfold __init__, bind, listPorts, raise, eval, serial_Serial, on_self.
  cbn [listing scans opened].
  destruct (listing h (scans h)) as [| p0 ps0]; [reflexivity |].
  change (len (p0 :: ps0) =? 0) with false. cbv iota.
  cbn [listing scans opened].
  destruct (listing h (S (scans h))) as [| p1 ps1]; [reflexivity |].
  cbn [item0]. rewrite show_eq. destruct bf; reflexivity.
Qed.

(** With a discovered port the device list is always scanned twice. *)
Lemma init_discovering_scans_twice (lc : Z) (bf : bool) (h : Host) :
  listing h (scans h) <> [] ->
  scans (snd (__init__ None lc bf h)) = S (S (scans h)).
Proof.
  intro H. rewrite init_discovering.
  destruct (listing h (scans h)); [contradiction |].
  destruct (listing h (S (scans h))); reflexivity.
Qed.

(** C8: without a port identifier and with an empty discovery result, the
    constructor raises IOError("BlinkyTape not found!"), the NotFound error
    of the specification, and no port has been opened. *)
Theorem open_without_candidates_not_found (h : Host) (lc : Z) (bf : bool) :
  listing h (scans h) = [] ->
  __init__ None lc bf h =
    (inl (IOError "BlinkyTape not found!"),
     mkHost (listing h) (S (scans h)) (opened h)) /\
  opened (snd (__init__ None lc bf h)) = opened h.
Proof.
  intro H. rewrite init_discovering, H. split; reflexivity.
Qed.

Lemma open_without_candidates_not_found_witness :
  __init__ None default_ledCount default_buffered quiet_host =
    (inl (IOError "BlinkyTape not found!"),
     mkHost (listing quiet_host) (S (scans quiet_host)) (opened quiet_host)) /\
  opened (snd (__init__ None default_ledCount default_buffered quiet_host)) =
    opened quiet_host.
Proof.
  apply (open_without_candidates_not_found
           quiet_host default_ledCount default_buffered).
  reflexivity.
Defined.

(** C9: on a host whose first scan finds /dev/ttyACM0 and whose second scan
    finds /dev/ttyACM1, the constructor scans twice and opens the port of
    the second scan, not the first candidate of the scan it checked; when
    the second scan finds nothing it raises IndexError. *)
Theorem open_scans_twice_and_opens_second_result :
  listing renaming_host (scans renaming_host) = ["/dev/ttyACM0"] /\
  (exists s h',
     __init__ None default_ledCount default_buffered renaming_host =
       (inr s, h') /\
     scans h' = 2%nat /\
     port s = "/dev/ttyACM1" /\
     opened h' = [("/dev/ttyACM1", 115200)]) /\
  fst (__init__ None default_ledCount default_buffered unplugging_host) =
    inl (IndexError "list index out of range").
Proof.
  split; [reflexivity |]. split; [| reflexivity].
  eexists. eexists. split; [reflexivity |]. repeat split.
Qed.

(** ** The accumulator over reachable sessions *)

Lemma whole_pixels_sendPixel (r g b : Z) (s : BlinkyTape) :
  whole_pixels s -> whole_pixels (snd (sendPixel r g b s)).
Proof.
  unfold whole_pixels. intro H. rewrite sendPixel_eq.
  destruct (9 <? ledCount s); [| exact H].
  destruct (buffered s); destruct s as [p lc bf bs tr]; cbn in *; [| exact H].
  unfold len in *. rewrite length_app, Nat2Z.inj_add.
  apply Z.divide_add_r; [exact H |]. exists 1. reflexivity.
Qed.

Lemma whole_pixels_show (s : BlinkyTape) :
  whole_pixels s -> whole_pixels (snd (show s)).
Proof.
  unfold whole_pixels. intro H. rewrite show_eq. cbn.
  destruct (buffered s); [exists 0; reflexivity | exact H].
Qed.

Lemma whole_pixels_for_range (n : nat) (body : M BlinkyTape unit) :
  (forall s, whole_pixels s -> whole_pixels (snd (body s))) ->
  forall s, whole_pixels s -> whole_pixels (snd (for_range n body s)).
Proof.
  intro Hbody. induction n as [| n IH]; intros s Hs; [exact Hs |].
  cbn [for_range]. unfold bind. specialize (Hbody s Hs).
  destruct (body s) as [[e | []] s1]; cbn in *; [exact Hbody |].
  apply IH, Hbody.
Qed.

Lemma whole_pixels_perform (c : call) (s : BlinkyTape) :
  whole_pixels s -> whole_pixels (snd (perform c s)).
Proof.
  intro Hs. destruct c as [r g b | colors | | r g b]; cbn [perform].
  - apply whole_pixels_sendPixel, Hs.
  - rewrite send_list_eq. unfold whole_pixels in *.
    destruct (send_list_loop colors []); cbn; [exact Hs |].
    destruct (buffered s); [exists 0; reflexivity | exact Hs].
  - apply whole_pixels_show, Hs.
  - unfold displayColor, bind at 1, get. unfold bind.
    pose proof (whole_pixels_for_range (Z.to_nat (ledCount s))
                  (sendPixel r g b) (whole_pixels_sendPixel r g b) s Hs) as H.
    destruct (for_range (Z.to_nat (ledCount s)) (sendPixel r g b) s)
      as [[e | []] s1]; cbn in *; [exact H |].
    apply whole_pixels_show, H.
Qed.

(** The half of the accumulator invariant that the code keeps: on every
    reachable session the accumulator holds whole pixels. *)
Lemma reachable_whole_pixels (s : BlinkyTape) :
  reachable s -> len (buf s) mod 3 = 0.
Proof.
  intro H. apply Z.mod_divide; [lia |]. fold (whole_pixels s).
  induction H as [[p |] lc bf h h' s E | c s _ IH].
  - rewrite init_with_port in E. injection E as <- _. exists 0. reflexivity.
  - rewrite init_discovering in E.
    destruct (listing h (scans h)); [discriminate |].
    destruct (listing h (S (scans h))); [discriminate |].
    injection E as <- _. exists 0. reflexivity.
  - apply whole_pixels_perform, IH.
Qed.

Lemma reachable_after (calls : list call) :
  forall s, reachable s -> reachable (after calls s).
Proof.
  induction calls as [| c rest IH]; intros s H; [exact H |].
  cbn [after fold_left]. apply (IH (snd (perform c s))).
  apply reach_call, H.
Qed.

Lemma tape60_one_pixel_reachable : reachable tape60_one_pixel.
Proof.
  apply reachable_after.
  apply (reach_open (Some "COM5") default_ledCount default_buffered quiet_host
           (mkHost (fun _ => []) 0 [("COM5", 115200)])).
  reflexivity.
Qed.

(** C2: the strip of ten LEDs, opened in buffered mode, accepts eleven
    calls of [sendPixel]: the session reached holds eleven whole pixels for a
    capacity of ten, so the bound of the invariant is broken, while the
    length is still a multiple of 3. *)
Theorem accumulator_exceeds_capacity :
  reachable tape10_overfull /\
  for_each (repeat (1, 2, 3) 11) (fun '(r, g, b) => sendPixel r g b) tape10 =
    (inr tt, tape10_overfull) /\
  ledCount tape10_overfull = 10 /\
  len (buf tape10_overfull) mod 3 = 0 /\
  pixels_held tape10_overfull = 11 /\
  ~ pixels_held tape10_overfull <= ledCount tape10_overfull.
Proof.
  split.
  - apply reachable_after.
    apply (reach_open (Some "COM5") 10 true quiet_host
             (mkHost (fun _ => []) 0 [("COM5", 115200)])).
    reflexivity.
  - split; [reflexivity |]. split; [reflexivity |]. split; [reflexivity |].
    split; [reflexivity |]. vm_compute. intro H. apply H. reflexivity.
Qed.

(** * Further properties of the driver *)

(** ** Loops of [sendPixel] *)

Lemma for_range_sendPixel_buffered (r g b : Z) (n : nat) :
  forall s, buffered s = true -> 9 < ledCount s ->
    for_range n (sendPixel r g b) s =
    (inr tt,
     set_buf (buf s ++ List.concat (repeat (triplet (r, g, b)) n)) s).
Proof.
  induction n as [| n IH]; intros s Hb Hc.
  - cbn. rewrite app_nil_r. destruct s; reflexivity.
  - cbn [for_range repeat List.concat]. unfold bind.
    rewrite (sendPixel_accepts r g b s Hc), Hb.
    rewrite IH by (destruct s; assumption).
    destruct s; cbn. rewrite <- app_assoc. reflexivity.
Qed.

Lemma for_range_sendPixel_immediate (r g b : Z) (n : nat) :
  forall s, buffered s = false -> 9 < ledCount s ->
    for_range n (sendPixel r g b) s =
    (inr tt,
     mkBlinkyTape (port s) (ledCount s) false (buf s)
       (serial s ++
          List.concat (repeat [Write (triplet (r, g, b)); Flush] n))).
Proof.
  induction n as [| n IH]; intros s Hb Hc.
  - cbn. rewrite app_nil_r. destruct s; cbn in Hb; subst; reflexivity.
  - cbn [for_range repeat List.concat]. unfold bind.
    rewrite (sendPixel_accepts r g b s Hc), Hb.
    rewrite IH by (destruct s; assumption).
    destruct s; cbn. rewrite <- !app_assoc. reflexivity.
Qed.

Lemma for_each_sendPixel_immediate (pixels : list (Z * Z * Z)) :
  forall s, buffered s = false -> 9 < ledCount s ->
    for_each pixels (fun '(r, g, b) => sendPixel r g b) s =
    (inr tt,
     mkBlinkyTape (port s) (ledCount s) false (buf s)
       (serial s ++ flat_map (fun p => [Write (triplet p); Flush]) pixels)).
Proof.
  induction pixels as [| [[r g] b] rest IH]; intros s Hb Hc.
  - cbn. rewrite app_nil_r. destruct s; cbn in Hb; subst; reflexivity.
  - cbn [for_each flat_map]. unfold bind.
    rewrite (sendPixel_accepts r g b s Hc), Hb.
    rewrite IH by (destruct s; assumption).
    destruct s; cbn. rewrite <- !app_assoc. reflexivity.
Qed.

Lemma displayColor_unfold (r g b : Z) (s : BlinkyTape) :
  displayColor r g b s =
  (for_range (Z.to_nat (ledCount s)) (sendPixel r g b) ;; show) s.
Proof. reflexivity. Qed.

(** ** [displayColor] *)

(** X1: on a buffered session with more than 9 LEDs, [displayColor] sends
    one write holding whatever the accumulator already held, then
    [ledCount] copies of the encoded colour, then (0,0,255); it flushes,
    discards input and leaves the accumulator empty. *)
Theorem displayColor_buffered_one_frame (s : BlinkyTape) (r g b : Z) :
  buffered s = true -> 9 < ledCount s ->
  displayColor r g b s =
  (inr tt,
   mkBlinkyTape (port s) (ledCount s) true []
     (serial s ++
        [Write (buf s ++
                List.concat (repeat (triplet (r, g, b))
                                    (Z.to_nat (ledCount s))) ++
                [0; 0; 255]);
         Flush; FlushInput])).
Proof.
  intros Hb Hc. rewrite displayColor_unfold. unfold bind.
  rewrite (for_range_sendPixel_buffered r g b _ s Hb Hc), show_eq.
  destruct s as [p lc bf bs tr]. cbn in Hb. subst. cbn.
  rewrite <- app_assoc. reflexivity.
Qed.

Lemma displayColor_buffered_one_frame_witness :
  displayColor 255 (-4) 17 tape60_one_pixel =
  (inr tt,
   mkBlinkyTape (port tape60_one_pixel) (ledCount tape60_one_pixel) true []
     (serial tape60_one_pixel ++
        [Write (buf tape60_one_pixel ++
                List.concat (repeat (triplet (255, -4, 17))
                               (Z.to_nat (ledCount tape60_one_pixel))) ++
                [0; 0; 255]);
         Flush; FlushInput])).
Proof.
  apply (displayColor_buffered_one_frame tape60_one_pixel 255 (-4) 17).
  - reflexivity.
  - cbn. lia.
Defined.

(** X2: on an immediate session with more than 9 LEDs, [displayColor] makes
    [ledCount] pairs of a 3-byte write and a flush, then writes (0,0,255),
    flushes and discards input; the accumulator is not touched. *)
Theorem displayColor_immediate_pixel_by_pixel (s : BlinkyTape) (r g b : Z) :
  buffered s = false -> 9 < ledCount s ->
  displayColor r g b s =
  (inr tt,
   mkBlinkyTape (port s) (ledCount s) false (buf s)
     (serial s ++
        List.concat (repeat [Write (triplet (r, g, b)); Flush]
                            (Z.to_nat (ledCount s))) ++
        [Write [0; 0; 255]; Flush; FlushInput])).
Proof.
  intros Hb Hc. rewrite displayColor_unfold. unfold bind.
  rewrite (for_range_sendPixel_immediate r g b _ s Hb Hc), show_eq.
  cbn. rewrite <- app_assoc. reflexivity.
Qed.

Lemma displayColor_immediate_pixel_by_pixel_witness :
  displayColor 1 2 3 tape60_immediate =
  (inr tt,
   mkBlinkyTape (port tape60_immediate) (ledCount tape60_immediate) false
     (buf tape60_immediate)
     (serial tape60_immediate ++
        List.concat (repeat [Write (triplet (1, 2, 3)); Flush]
                       (Z.to_nat (ledCount tape60_immediate))) ++
        [Write [0; 0; 255]; Flush; FlushInput])).
Proof.
  apply (displayColor_immediate_pixel_by_pixel tape60_immediate 1 2 3).
  - reflexivity.
  - cbn. lia.
Defined.

(** X3: with 1 to 9 LEDs, [displayColor] raises the [RuntimeError] of
    [sendPixel] on its first pixel: nothing is written, the show command is
    not sent and the object is unchanged. *)
Theorem displayColor_small_strip_raises (s : BlinkyTape) (r g b : Z) :
  0 < ledCount s <= 9 ->
  displayColor r g b s =
  (inl (RuntimeError "Attempting to set pixel outside range!"), s).
Proof.
  intros [Hpos Hle]. rewrite displayColor_unfold.
  destruct (Z.to_nat (ledCount s)) as [| n] eqn:E; [lia |].
  cbn [for_range]. unfold bind.
  rewrite (sendPixel_rejects r g b s Hle). reflexivity.
Qed.

Lemma displayColor_small_strip_raises_witness :
  displayColor 9 9 9 tape5 =
  (inl (RuntimeError "Attempting to set pixel outside range!"), tape5).
Proof.
  apply (displayColor_small_strip_raises tape5 9 9 9). cbn. lia.
Defined.

(** X4: with zero or a negative number of LEDs the loop of [displayColor]
    is empty, so the call does not raise and is exactly [show]. *)
Theorem displayColor_no_leds_is_show (s : BlinkyTape) (r g b : Z) :
  ledCount s <= 0 ->
  displayColor r g b s = show s /\ fst (displayColor r g b s) = inr tt.
Proof.
  intro H. rewrite displayColor_unfold.
  replace (Z.to_nat (ledCount s)) with O by lia.
  cbn [for_range]. unfold bind, ret. split; [reflexivity |].
  rewrite show_eq. reflexivity.
Qed.

Lemma displayColor_no_leds_is_show_witness :
  displayColor 1 2 3 tape0 = show tape0 /\
  fst (displayColor 1 2 3 tape0) = inr tt.
Proof.
  apply (displayColor_no_leds_is_show tape0 1 2 3). cbn. lia.
Defined.

(** ** Outcomes of the constructor *)

Lemma init_with_port_fresh (p : string) (lc : Z) (bf : bool) (h : Host) :
  __init__ (Some p) lc bf h =
  (inr (fresh p lc bf),
   mkHost (listing h) (scans h) (opened h ++ [(p, 115200)])).
Proof. apply init_with_port. Qed.

(** X5: whenever the constructor returns a session, that session has an
    empty accumulator, the requested [ledCount] and [buffered], and a trace
    holding only the initial show command; exactly one port was opened, the
    session's, at 115200 baud; and a port given by the caller is used as it
    is, without any scan of the device list. *)
Theorem open_success_outcome
    (arg : option string) (lc : Z) (bf : bool) (h h' : Host)
    (s : BlinkyTape) :
  __init__ arg lc bf h = (inr s, h') ->
  s = fresh (port s) lc bf /\
  opened h' = opened h ++ [(port s, 115200)] /\
  (forall p, arg = Some p -> port s = p /\ scans h' = scans h) /\
  (arg = None ->
   scans h' = S (S (scans h)) /\
   exists rest, listing h (S (scans h)) = port s :: rest).
Proof.
  intro E. destruct arg as [p |].
  - rewrite init_with_port_fresh in E. injection E as <- <-. cbn.
    split; [reflexivity |]. split; [reflexivity |]. split.
    + intros q Hq. injection Hq as <-. split; reflexivity.
    + discriminate.
  - rewrite init_discovering in E.
    destruct (listing h (scans h)) as [| p0 ps0]; [discriminate |].
    destruct (listing h (S (scans h))) as [| p1 ps1]; [discriminate |].
    injection E as <- <-. cbn.
    split; [reflexivity |]. split; [reflexivity |]. split.
    + discriminate.
    + intros _. split; [reflexivity |]. exists ps1. reflexivity.
Qed.

Lemma open_success_outcome_witness :
  tape60 = fresh (port tape60) default_ledCount default_buffered /\
  opened (mkHost (fun _ => []) 0 [("COM5", 115200)]) =
    opened quiet_host ++ [(port tape60, 115200)] /\
  (forall p, Some "COM5" = Some p ->
     port tape60 = p /\
     scans (mkHost (fun _ => []) 0 [("COM5", 115200)]) = scans quiet_host) /\
  (Some "COM5" = None ->
   scans (mkHost (fun _ => []) 0 [("COM5", 115200)]) =
     S (S (scans quiet_host)) /\
   exists rest, listing quiet_host (S (scans quiet_host)) = port tape60 :: rest).
Proof.
  apply (open_success_outcome (Some "COM5") default_ledCount default_buffered
           quiet_host (mkHost (fun _ => []) 0 [("COM5", 115200)]) tape60).
  reflexivity.
Defined.

(** X6: when the first scan of the device list finds a device and the
    second scan finds none, the constructor called without a port raises
    the IndexError of [listPorts()[0]], not the IOError of line 45; the list
    has been scanned twice and no port has been opened. *)
Theorem open_device_gone_at_second_scan
    (lc : Z) (bf : bool) (h : Host) :
  listing h (scans h) <> [] ->
  listing h (S (scans h)) = [] ->
  __init__ None lc bf h =
    (inl (IndexError "list index out of range"),
     mkHost (listing h) (S (S (scans h))) (opened h)) /\
  opened (snd (__init__ None lc bf h)) = opened h.
Proof.
  intros H1 H2. rewrite init_discovering, H2.
  destruct (listing h (scans h)) as [| p0 ps0]; [contradiction |].
  split; reflexivity.
Qed.

Lemma open_device_gone_at_second_scan_witness :
  __init__ None default_ledCount default_buffered unplugging_host =
    (inl (IndexError "list index out of range"),
     mkHost (listing unplugging_host) (S (S (scans unplugging_host)))
       (opened unplugging_host)) /\
  opened (snd (__init__ None default_ledCount default_buffered
                 unplugging_host)) = opened unplugging_host.
Proof.
  apply (open_device_gone_at_second_scan
           default_ledCount default_buffered unplugging_host).
  - cbn. discriminate.
  - reflexivity.
Defined.



(** ** What the methods never change *)

Lemma for_range_preserves
    (P : BlinkyTape -> Prop) (n : nat) (body : M BlinkyTape unit) :
  (forall s, P s -> P (snd (body s))) ->
  forall s, P s -> P (snd (for_range n body s)).
Proof.
  intro Hbody. induction n as [| n IH]; intros s Hs; [exact Hs |].
  cbn [for_range]. unfold bind. specialize (Hbody s Hs).
  destruct (body s) as [[e | []] s1]; cbn in *; [exact Hbody |].
  apply IH, Hbody.
Qed.

Lemma displayColor_preserves (P : BlinkyTape -> Prop) (r g b : Z) :
  (forall s, P s -> P (snd (sendPixel r g b s))) ->
  (forall s, P s -> P (snd (show s))) ->
  forall s, P s -> P (snd (displayColor r g b s)).
Proof.
  intros Hpix Hshow s Hs. rewrite displayColor_unfold. unfold bind.
  pose proof (for_range_preserves P (Z.to_nat (ledCount s))
                (sendPixel r g b) Hpix s Hs) as H.
  destruct (for_range (Z.to_nat (ledCount s)) (sendPixel r g b) s)
    as [[e | []] s1]; cbn in *; [exact H |].
  apply Hshow, H.
Qed.

Lemma sendPixel_config (r g b : Z) (s : BlinkyTape) :
  config (snd (sendPixel r g b s)) = config s.
Proof.
  rewrite sendPixel_eq. destruct (9 <? ledCount s); [| reflexivity].
  destruct (buffered s); reflexivity.
Qed.

Lemma show_config (s : BlinkyTape) : config (snd (show s)) = config s.
Proof. rewrite show_eq. reflexivity. Qed.

Lemma perform_config (c : call) (s : BlinkyTape) :
  config (snd (perform c s)) = config s.
Proof.
  destruct c as [r g b | colors | | r g b]; cbn [perform].
  - apply sendPixel_config.
  - rewrite send_list_eq. destruct (send_list_loop colors []); reflexivity.
  - apply show_config.
  - apply (displayColor_preserves (fun s' => config s' = config s)).
    + intros s' H. rewrite sendPixel_config. exact H.
    + intros s' H. rewrite show_config. exact H.
    + reflexivity.
Qed.

(** X8: no sequence of [sendPixel], [send_list], [show] and [displayColor]
    calls, failed ones included, changes the port name, [ledCount] or
    [buffered] of a session; [resetToBootloader] and [close] keep them
    too. *)
Theorem configuration_never_changes (calls : list call) (s : BlinkyTape) :
  config (after calls s) = config s /\
  config (snd (resetToBootloader (after calls s))) = config s /\
  config (snd (close (after calls s))) = config s.
Proof.
  assert (H : config (after calls s) = config s).
  { revert s. induction calls as [| c rest IH]; intro s; [reflexivity |].
    cbn [after fold_left]. fold (after rest (snd (perform c s))).
    rewrite IH. apply perform_config. }
  split; [exact H |]. split; rewrite <- H; reflexivity.
Qed.

Lemma perform_immediate_buf (c : call) (s : BlinkyTape) :
  buffered s = false -> buf (snd (perform c s)) = buf s.
Proof.
  intro Hb. destruct c as [r g b | colors | | r g b]; cbn [perform].
  - rewrite sendPixel_eq, Hb. destruct (9 <? ledCount s); reflexivity.
  - rewrite send_list_eq, Hb. destruct (send_list_loop colors []); reflexivity.
  - rewrite show_eq, Hb. reflexivity.
  - apply (displayColor_preserves
             (fun s' => buffered s' = false /\ buf s' = buf s));
      [| | split; [exact Hb | reflexivity]].
    + intros s' [Hb' Hs']. rewrite sendPixel_eq, Hb'.
      destruct (9 <? ledCount s'); unfold called; cbn; split; assumption.
    + intros s' [Hb' Hs']. rewrite show_eq, Hb'. cbn.
      split; [reflexivity | exact Hs'].
Qed.

(** X9: on every reachable session opened with [buffered=False] the
    accumulator is empty: the immediate mode never stores pixel data. *)
Theorem immediate_accumulator_stays_empty (s : BlinkyTape) :
  reachable s -> buffered s = false -> buf s = [].
Proof.
  induction 1 as [arg lc bf h h' s E | c s _ IH]; intro Hb.
  - destruct arg as [p |].
    + rewrite init_with_port in E. injection E as <- _. reflexivity.
    + rewrite init_discovering in E.
      destruct (listing h (scans h)); [discriminate |].
      destruct (listing h (S (scans h))); [discriminate |].
      injection E as <- _. reflexivity.
  - pose proof (perform_config c s) as Hc. unfold config in Hc.
    injection Hc as _ _ Hbf. rewrite Hb in Hbf. symmetry in Hbf.
    rewrite (perform_immediate_buf c s Hbf). apply IH, Hbf.
Qed.

Lemma immediate_accumulator_stays_empty_witness :
  buf tape60_immediate_used = [].
Proof.
  apply (immediate_accumulator_stays_empty tape60_immediate_used).
  - apply reachable_after.
    apply (reach_open (Some "COM5") 60 false quiet_host
             (mkHost (fun _ => []) 0 [("COM5", 115200)])).
    reflexivity.
  - reflexivity.
Defined.

(** ** The framing of the byte stream *)

Lemma pixel_data_app (a b : bytes) :
  pixel_data a -> pixel_data b -> pixel_data (a ++ b).
Proof.
  induction 1 as [| x y z rest Hx Hy Hz _ IH]; intro Hb; [exact Hb |].
  cbn. constructor; auto.
Qed.

Lemma pixel_data_framed (a : bytes) : pixel_data a -> framed a.
Proof. induction 1; constructor; assumption. Qed.

Lemma framed_app (a b : bytes) : framed a -> framed b -> framed (a ++ b).
Proof.
  induction 1 as [| x y z rest Hx Hy Hz _ IH | rest _ IH]; intro Hb; cbn.
  - exact Hb.
  - apply framed_data; auto.
  - apply framed_show; auto.
Qed.

Lemma framed_control : framed [0; 0; 255].
Proof. apply framed_show, framed_nil. Qed.

Lemma triplet_pixel_data (p : Z * Z * Z) : pixel_data (triplet p).
Proof.
  destruct p as [[r g] b]. constructor; try apply clamp_range. constructor.
Qed.

Lemma wire_app (a b : list serial_call) : wire (a ++ b) = wire a ++ wire b.
Proof. apply flat_map_app. Qed.

Lemma clamp_upper_is_byte_eq (x : Z) : is_byte (clamp_upper x) = (0 <=? x).
Proof.
  unfold is_byte, clamp_upper. rewrite geb_255.
  destruct (Z.leb_spec 255 x) as [H | H].
  - cbn. symmetry. apply Z.leb_le. lia.
  - destruct (Z.leb_spec 0 x); [| reflexivity].
    cbn. apply Z.ltb_lt. lia.
Qed.

Lemma clamp_upper_clamp (x : Z) : 0 <= x -> clamp_upper x = clamp x.
Proof.
  intro H. unfold clamp_upper, clamp.
  destruct (Z.ltb_spec x 0); [lia | reflexivity].
Qed.

Lemma triplet_upper_triplet (p : Z * Z * Z) :
  nonneg p -> triplet_upper p = triplet p.
Proof.
  destruct p as [[r g] b]. intros [Hr [Hg Hb]]. cbn.
  rewrite !clamp_upper_clamp by assumption. reflexivity.
Qed.

Lemma flat_map_triplet_upper (colors : list (Z * Z * Z)) :
  Forall nonneg colors ->
  flat_map triplet_upper colors = flat_map triplet colors.
Proof.
  induction 1 as [| p rest Hp _ IH]; [reflexivity |].
  cbn [flat_map]. rewrite IH, (triplet_upper_triplet p Hp). reflexivity.
Qed.

Lemma flat_map_triplet_pixel_data (pixels : list (Z * Z * Z)) :
  pixel_data (flat_map triplet pixels).
Proof.
  induction pixels as [| p rest IH]; [constructor |].
  cbn [flat_map]. apply pixel_data_app; [apply triplet_pixel_data | exact IH].
Qed.

Lemma send_list_loop_step (r g b : Z) (rest : list (Z * Z * Z)) (data : bytes) :
  send_list_loop ((r, g, b) :: rest) data =
  if (0 <=? r) && ((0 <=? g) && ((0 <=? b) && true)) then
    send_list_loop rest
      (data ++ [clamp_upper r; clamp_upper g; clamp_upper b])
  else inl (ValueError "byte must be in range(0, 256)").
Proof.
  cbn [send_list_loop]. cbv zeta.
  fold (clamp_upper r) (clamp_upper g) (clamp_upper b).
  unfold bytearray. cbn [forallb]. rewrite !clamp_upper_is_byte_eq.
  destruct ((0 <=? r) && ((0 <=? g) && ((0 <=? b) && true))); reflexivity.
Qed.

Lemma send_list_loop_inr (colors : list (Z * Z * Z)) :
  forall data out,
    send_list_loop colors data = inr out -> Forall nonneg colors.
Proof.
  induction colors as [| [[r g] b] rest IH]; intros data out E;
    [constructor |].
  rewrite send_list_loop_step in E.
  destruct (Z.leb_spec 0 r); [| discriminate].
  destruct (Z.leb_spec 0 g); [| discriminate].
  destruct (Z.leb_spec 0 b); [| discriminate].
  cbn [andb] in E. constructor; [cbn; lia | exact (IH _ _ E)].
Qed.

Lemma send_list_loop_inl (colors : list (Z * Z * Z)) :
  forall data e,
    send_list_loop colors data = inl e ->
    e = ValueError "byte must be in range(0, 256)".
Proof.
  induction colors as [| [[r g] b] rest IH]; intros data e E;
    [discriminate |].
  rewrite send_list_loop_step in E.
  destruct ((0 <=? r) && ((0 <=? g) && ((0 <=? b) && true))).
  - exact (IH _ _ E).
  - injection E as <-. reflexivity.
Qed.

Lemma sendPixel_well_framed (r g b : Z) (s : BlinkyTape) :
  well_framed s -> well_framed (snd (sendPixel r g b s)).
Proof.
  intros [Hbuf Hwire]. rewrite sendPixel_eq.
  destruct (9 <? ledCount s); [| split; assumption].
  destruct (buffered s); unfold well_framed, set_buf, called;
    cbn [snd buf serial]; split; try assumption.
  - apply pixel_data_app; [exact Hbuf | apply triplet_pixel_data].
  - rewrite !wire_app. cbn. rewrite !app_nil_r.
    apply framed_app; [exact Hwire |].
    apply pixel_data_framed, (triplet_pixel_data (r, g, b)).
Qed.

Lemma show_well_framed (s : BlinkyTape) :
  well_framed s -> well_framed (snd (show s)).
Proof.
  intros [Hbuf Hwire]. rewrite show_eq. unfold well_framed.
  cbn [snd buf serial]. split.
  - destruct (buffered s); [constructor | exact Hbuf].
  - rewrite wire_app. cbn. rewrite !app_nil_r.
    apply framed_app; [exact Hwire |]. apply framed_app.
    + destruct (buffered s); [apply pixel_data_framed, Hbuf | constructor].
    + apply framed_control.
Qed.

Lemma send_list_well_framed (colors : list (Z * Z * Z)) (s : BlinkyTape) :
  well_framed s -> well_framed (snd (send_list colors s)).
Proof.
  intros [Hbuf Hwire]. rewrite send_list_eq.
  destruct (send_list_loop colors []) as [e | data] eqn:E;
    [split; assumption |].
  pose proof (send_list_loop_inr colors [] data E) as Hnn.
  rewrite (send_list_loop_nonneg colors Hnn []) in E. injection E as <-.
  cbn [app]. rewrite (flat_map_triplet_upper colors Hnn).
  unfold well_framed. cbn [snd buf serial]. split.
  - destruct (buffered s); [constructor | exact Hbuf].
  - rewrite wire_app. cbn. rewrite !app_nil_r.
    apply framed_app; [exact Hwire |]. apply framed_app.
    + apply pixel_data_framed, flat_map_triplet_pixel_data.
    + apply framed_app.
      * destruct (buffered s); [apply pixel_data_framed, Hbuf | constructor].
      * apply framed_control.
Qed.

Lemma perform_well_framed (c : call) (s : BlinkyTape) :
  well_framed s -> well_framed (snd (perform c s)).
Proof.
  intro H. destruct c as [r g b | colors | | r g b]; cbn [perform].
  - apply sendPixel_well_framed, H.
  - apply send_list_well_framed, H.
  - apply show_well_framed, H.
  - apply (displayColor_preserves well_framed);
      [apply sendPixel_well_framed | apply show_well_framed | exact H].
Qed.

Lemma fresh_well_framed (p : string) (lc : Z) (bf : bool) :
  well_framed (fresh p lc bf).
Proof. split; cbn; [constructor | apply framed_control]. Qed.

(** X10: on every reachable session the accumulator is a run of colour
    triplets with all bytes in 0..254, and the bytes sent to the device so
    far are a run of 3-byte blocks, each a colour triplet with bytes in
    0..254 or the show command (0,0,255): the byte 255 is never sent as
    colour data and the stream never loses its 3-byte alignment. *)
Theorem reachable_stream_is_framed (s : BlinkyTape) :
  reachable s -> pixel_data (buf s) /\ framed (wire (serial s)).
Proof.
  intro H. change (well_framed s).
  induction H as [[p |] lc bf h h' s E | c s _ IH].
  - rewrite init_with_port in E. injection E as <- _.
    apply fresh_well_framed.
  - rewrite init_discovering in E.
    destruct (listing h (scans h)); [discriminate |].
    destruct (listing h (S (scans h))); [discriminate |].
    injection E as <- _. apply fresh_well_framed.
  - apply perform_well_framed, IH.
Qed.

Lemma reachable_stream_is_framed_witness :
  pixel_data (buf tape10_overfull) /\ framed (wire (serial tape10_overfull)).
Proof.
  apply (reachable_stream_is_framed tape10_overfull).
  apply reachable_after.
  apply (reach_open (Some "COM5") 10 true quiet_host
           (mkHost (fun _ => []) 0 [("COM5", 115200)])).
  reflexivity.
Defined.

(** ** The two sending paths compared *)

Lemma clamp_in_range (x : Z) : is_data x -> clamp x = x.
Proof.
  intros [H0 H1]. unfold clamp. rewrite geb_255.
  destruct (Z.ltb_spec x 0); [lia |].
  destruct (Z.leb_spec 255 x); [lia | reflexivity].
Qed.

(** X11: a colour whose three channels are in 0..254 is encoded as itself,
    by [sendPixel] and by [send_list] alike. *)
Theorem in_range_colour_sent_unchanged (r g b : Z) :
  is_data r -> is_data g -> is_data b ->
  encode r g b = inr [r; g; b] /\
  send_list_loop [(r, g, b)] [] = inr [r; g; b].
Proof.
  intros Hr Hg Hb. split.
  - rewrite encode_eq. cbn. rewrite !clamp_in_range by assumption.
    reflexivity.
  - assert (Hnn : Forall nonneg [(r, g, b)]).
    { constructor; [| constructor]. cbn. unfold is_data in *. lia. }
    rewrite (send_list_loop_nonneg _ Hnn []),
      (flat_map_triplet_upper _ Hnn).
    cbn. rewrite !clamp_in_range by assumption. reflexivity.
Qed.

Lemma in_range_colour_sent_unchanged_witness :
  encode 0 127 254 = inr [0; 127; 254] /\
  send_list_loop [(0, 127, 254)] [] = inr [0; 127; 254].
Proof.
  apply (in_range_colour_sent_unchanged 0 127 254); unfold is_data; lia.
Defined.

Lemma wire_immediate_pixels (pixels : list (Z * Z * Z)) :
  wire (flat_map (fun p => [Write (triplet p); Flush]) pixels) =
  flat_map triplet pixels.
Proof.
  induction pixels as [| p rest IH]; [reflexivity |].
  cbn [flat_map]. rewrite wire_app, IH. cbn. rewrite app_nil_r.
  reflexivity.
Qed.

(** X12: for colours without a negative channel, on a session with more
    than 9 LEDs and an empty accumulator, [send_list] puts on the wire the
    same bytes as one [sendPixel] per colour followed by [show], in buffered
    and in immediate mode: the encoded triplets, then (0,0,255). *)
Theorem bulk_and_pixel_paths_send_same_bytes
    (s : BlinkyTape) (colors : list (Z * Z * Z)) :
  Forall nonneg colors -> buf s = [] -> 9 < ledCount s ->
  wire (serial (snd (send_list colors s))) =
    wire (serial s) ++ flat_map triplet colors ++ [0; 0; 255] /\
  wire (serial (snd ((for_each colors (fun '(r, g, b) => sendPixel r g b) ;;
                      show) s))) =
    wire (serial s) ++ flat_map triplet colors ++ [0; 0; 255].
Proof.
  intros Hnn He Hc. split.
  - rewrite send_list_eq, (send_list_loop_nonneg colors Hnn []).
    cbn [app snd serial]. rewrite (flat_map_triplet_upper colors Hnn), He.
    rewrite wire_app. cbn. rewrite !app_nil_r.
    destruct (buffered s); reflexivity.
  - unfold bind. destruct (buffered s) eqn:Hb.
    + rewrite (for_each_sendPixel_buffered colors s Hb Hc), show_eq.
      unfold set_buf. cbn [snd serial buf buffered]. rewrite Hb, He.
      rewrite wire_app. cbn. rewrite !app_nil_r. reflexivity.
    + rewrite (for_each_sendPixel_immediate colors s Hb Hc), show_eq.
      cbn [snd serial buf buffered]. rewrite !wire_app.
      rewrite wire_immediate_pixels. cbn. rewrite <- app_assoc.
      reflexivity.
Qed.

Lemma bulk_and_pixel_paths_send_same_bytes_witness :
  wire (serial (snd (send_list [(255, 0, 7); (3, 999, 4)] tape60_immediate))) =
    wire (serial tape60_immediate) ++
    flat_map triplet [(255, 0, 7); (3, 999, 4)] ++ [0; 0; 255] /\
  wire (serial (snd ((for_each [(255, 0, 7); (3, 999, 4)]
                        (fun '(r, g, b) => sendPixel r g b) ;;
                      show) tape60_immediate))) =
    wire (serial tape60_immediate) ++
    flat_map triplet [(255, 0, 7); (3, 999, 4)] ++ [0; 0; 255].
Proof.
  apply (bulk_and_pixel_paths_send_same_bytes
           tape60_immediate [(255, 0, 7); (3, 999, 4)]).
  - repeat constructor; lia.
  - reflexivity.
  - cbn. lia.
Defined.

(** X13: [send_list] raises exactly when some colour has a negative
    channel; the exception is then the [ValueError] of [bytearray], nothing
    is written, not even the colours that precede the bad one, no show
    command is sent and the object is unchanged. *)
Theorem send_list_raises_iff_negative_channel
    (s : BlinkyTape) (colors : list (Z * Z * Z)) :
  ((exists e, fst (send_list colors s) = inl e) <-> ~ Forall nonneg colors) /\
  (forall e, fst (send_list colors s) = inl e ->
     e = ValueError "byte must be in range(0, 256)" /\
     snd (send_list colors s) = s).
Proof.
  rewrite send_list_eq.
  destruct (send_list_loop colors []) as [e0 | data] eqn:E; cbn [fst snd].
  - split.
    + split.
      * intros _ Hnn.
        rewrite (send_list_loop_nonneg colors Hnn []) in E. discriminate.
      * intros _. exists e0. reflexivity.
    + intros e He. injection He as <-.
      split; [exact (send_list_loop_inl colors [] e0 E) | reflexivity].
  - split.
    + split.
      * intros [e He]. discriminate.
      * intro Hneg. exfalso. apply Hneg.
        exact (send_list_loop_inr colors [] data E).
    + intros e He. discriminate.
Qed.

Lemma len_flat_map_triplet (pixels : list (Z * Z * Z)) :
  len (flat_map triplet pixels) = 3 * len pixels.
Proof.
  unfold len. induction pixels as [| [[r g] b] rest IH]; [reflexivity |].
  cbn [flat_map triplet app List.length]. lia.
Qed.

(** X14: on a buffered session with more than 9 LEDs and an empty
    accumulator, any number N of [sendPixel] calls is accepted and the
    accumulator then holds N pixels, whatever [ledCount] is; nothing is
    sent to the device meanwhile. *)
Theorem buffered_pixels_accumulate_without_bound
    (s : BlinkyTape) (pixels : list (Z * Z * Z)) :
  buffered s = true -> 9 < ledCount s -> buf s = [] ->
  for_each pixels (fun '(r, g, b) => sendPixel r g b) s =
    (inr tt, set_buf (flat_map triplet pixels) s) /\
  pixels_held
    (snd (for_each pixels (fun '(r, g, b) => sendPixel r g b) s)) =
    len pixels /\
  serial (snd (for_each pixels (fun '(r, g, b) => sendPixel r g b) s)) =
    serial s.
Proof.
  intros Hb Hc He.
  rewrite (for_each_sendPixel_buffered pixels s Hb Hc), He. cbn [app snd].
  split; [reflexivity |]. split; [| reflexivity].
  unfold pixels_held, set_buf. cbn [buf].
  rewrite len_flat_map_triplet, Z.mul_comm. apply Z.div_mul. lia.
Qed.

Lemma buffered_pixels_accumulate_without_bound_witness :
  for_each (repeat (1, 2, 3) 70) (fun '(r, g, b) => sendPixel r g b) tape60 =
    (inr tt, set_buf (flat_map triplet (repeat (1, 2, 3) 70)) tape60) /\
  pixels_held
    (snd (for_each (repeat (1, 2, 3) 70)
            (fun '(r, g, b) => sendPixel r g b) tape60)) =
    len (repeat (1, 2, 3) 70) /\
  serial (snd (for_each (repeat (1, 2, 3) 70)
                 (fun '(r, g, b) => sendPixel r g b) tape60)) =
    serial tape60.
Proof.
  apply (buffered_pixels_accumulate_without_bound
           tape60 (repeat (1, 2, 3) 70)).
  - reflexivity.
  - cbn. lia.
  - reflexivity.
Defined.

(** ** Closing *)

(** X15: [resetToBootloader] sets the baud rate to 1200 and closes the
    port, and [close] only closes it; neither sends the show command, so
    pixels buffered by [sendPixel] and not yet shown never reach the device
    and stay in the accumulator. *)
Theorem unshown_pixels_are_not_sent_on_close
    (s : BlinkyTape) (pixels : list (Z * Z * Z)) :
  buffered s = true -> 9 < ledCount s ->
  (for_each pixels (fun '(r, g, b) => sendPixel r g b) ;;
   resetToBootloader) s =
    (inr tt,
     mkBlinkyTape (port s) (ledCount s) true
       (buf s ++ flat_map triplet pixels)
       (serial s ++ [SetBaudrate 1200; Close])) /\
  (for_each pixels (fun '(r, g, b) => sendPixel r g b) ;; close) s =
    (inr tt,
     mkBlinkyTape (port s) (ledCount s) true
       (buf s ++ flat_map triplet pixels)
       (serial s ++ [Close])) /\
  wire (serial (snd ((for_each pixels (fun '(r, g, b) => sendPixel r g b) ;;
                      resetToBootloader) s))) =
    wire (serial s).
Proof.
  intros Hb Hc. unfold bind.
  rewrite (for_each_sendPixel_buffered pixels s Hb Hc).
  destruct s as [p lc bf bs tr]. cbn in Hb. subst.
  unfold resetToBootloader, close, serial_setBaudrate, serial_close, bind,
    modify, called, set_buf.
  cbn [port ledCount buffered buf serial snd].
  rewrite <- app_assoc. cbn [app].
  split; [reflexivity |]. split; [reflexivity |].
  rewrite wire_app. cbn. apply app_nil_r.
Qed.

Lemma unshown_pixels_are_not_sent_on_close_witness :
  (for_each [(1, 2, 3); (4, 5, 6)] (fun '(r, g, b) => sendPixel r g b) ;;
   resetToBootloader) tape60 =
    (inr tt,
     mkBlinkyTape (port tape60) (ledCount tape60) true
       (buf tape60 ++ flat_map triplet [(1, 2, 3); (4, 5, 6)])
       (serial tape60 ++ [SetBaudrate 1200; Close])) /\
  (for_each [(1, 2, 3); (4, 5, 6)] (fun '(r, g, b) => sendPixel r g b) ;;
   close) tape60 =
    (inr tt,
     mkBlinkyTape (port tape60) (ledCount tape60) true
       (buf tape60 ++ flat_map triplet [(1, 2, 3); (4, 5, 6)])
       (serial tape60 ++ [Close])) /\
  wire (serial (snd ((for_each [(1, 2, 3); (4, 5, 6)]
                        (fun '(r, g, b) => sendPixel r g b) ;;
                      resetToBootloader) tape60))) =
    wire (serial tape60).
Proof.
  apply (unshown_pixels_are_not_sent_on_close tape60 [(1, 2, 3); (4, 5, 6)]).
  - reflexivity.
  - cbn. lia.
Defined.
